(** * Figma-Tinifier server: a shallow embedding of the request handlers

    The server is a thin HTTP relay in front of the Tinify image service.
    This development embeds the handlers of the current server (the file
    with the binary endpoint and the shared [compressImage] pipeline) and
    of the older [server.js] (one inline JSON handler), and proves the
    observable contract of both.

    - JavaScript values are an inductive type [jsval] with the language's
      truthiness, strict equality, [||], string conversion and [parseInt].
    - The [tinify] client is a piece of state (its [compressionCount]
      property and the remote service behind it); its network operations
      are parameters of the development.
    - A handler is a function from a request and a world to a response
      and a world. *)

From Stdlib Require Import ZArith String Ascii List Bool Lia Sorted.
From Stdlib Require Import DecimalString DecimalFacts DecimalPos DecimalN DecimalZ.
From Stdlib Require PrimFloat FloatOps Uint63.
From stdpp Require Import base option gmap strings list.

Local Open Scope string_scope.
Local Open Scope Z_scope.
Local Open Scope list_scope.

(** ** JavaScript values *)

Module JS.

(** Values that reach the handlers: what [JSON.parse] or the multipart
    parser put in [req.body], and what the handlers compute from them.
    Numbers are the integral ones (sizes, counts, dimensions as the data
    model has them), plus [NaN] and the infinities that [parseInt] and
    [Math.round] can produce.  An object or array is represented by the
    string its [ToString] conversion yields. *)
Inductive jsval : Type :=
| JUndefined
| JNull
| JBool (b : bool)
| JNum (n : Z)
| JNaN
| JInfinity (negative : bool)
| JStr (s : string)
| JObj (repr : string).

#[global] Instance jsval_eq_dec : EqDecision jsval.
Proof. solve_decision. Defined.

(** [ToBoolean]: the test of [if (v)], [v ? a : b], [!v] and [v || w]. *)
Definition truthy (v : jsval) : bool :=
  match v with
  | JUndefined | JNull | JNaN => false
  | JBool b => b
  | JNum n => negb (n =? 0)
  | JInfinity _ => true
  | JStr s => negb (String.eqb s "")
  | JObj _ => true
  end.

(** [a || b] *)
Definition or_else (a b : jsval) : jsval := if truthy a then a else b.

(** [v === 'literal'] (and [!==] as its negation): only the string itself
    is strictly equal to a string literal. *)
Definition strict_eq_str (v : jsval) (lit : string) : bool :=
  match v with
  | JStr s => String.eqb s lit
  | _ => false
  end.

(** [v === n] for an integer literal. *)
Definition strict_eq_num (v : jsval) (n : Z) : bool :=
  match v with
  | JNum m => m =? n
  | _ => false
  end.

(** Decimal numeral of an integer, as [Number.prototype.toString]
    prints an integral number (all digits, which JavaScript does for
    magnitudes below 10^21). *)
Definition string_of_Z (n : Z) : string :=
  NilZero.string_of_int (Z.to_int n).

(** [ToString], the conversion of template literals, of [.toString()]
    on numbers and of the argument of [parseInt]. *)
Definition ToString (v : jsval) : string :=
  match v with
  | JUndefined => "undefined"
  | JNull => "null"
  | JBool true => "true"
  | JBool false => "false"
  | JNum n => string_of_Z n
  | JNaN => "NaN"
  | JInfinity false => "Infinity"
  | JInfinity true => "-Infinity"
  | JStr s => s
  | JObj repr => repr
  end.

(** *** [parseInt] with no radix argument *)

(** ASCII white space skipped at the start of the string (tab, line
    feed, vertical tab, form feed, carriage return, space). *)
Definition is_white (c : ascii) : bool :=
  let n := N_of_ascii c in
  ((9 <=? n) && (n <=? 13))%N || (n =? 32)%N.

Fixpoint trim_start (s : string) : string :=
  match s with
  | String c r => if is_white c then trim_start r else s
  | EmptyString => EmptyString
  end.

(** Value of a character as a digit of a radix up to 36. *)
Definition digit_value (c : ascii) : option Z :=
  let n := Z.of_N (N_of_ascii c) in
  if (48 <=? n) && (n <=? 57) then Some (n - 48)
  else if (97 <=? n) && (n <=? 122) then Some (n - 87)
  else if (65 <=? n) && (n <=? 90) then Some (n - 55)
  else None.

(** Reads the longest prefix of digits of [radix]; [acc] is the value
    read so far, [None] while no digit has been read. *)
Fixpoint read_digits (radix : Z) (s : string) (acc : option Z) : option Z :=
  match s with
  | String c r =>
      match digit_value c with
      | Some d =>
          if d <? radix
          then read_digits radix r (Some (default 0 acc * radix + d))
          else acc
      | None => acc
      end
  | EmptyString => acc
  end.

(** Strips a sign; [true] when the sign is [-]. *)
Definition read_sign (s : string) : bool * string :=
  match s with
  | String "-" r => (true, r)
  | String "+" r => (false, r)
  | _ => (false, s)
  end.

(** Strips a [0x] or [0X] prefix, which selects radix 16. *)
Definition read_radix (s : string) : Z * string :=
  match s with
  | String "0" (String "x" r) => (16, r)
  | String "0" (String "X" r) => (16, r)
  | _ => (10, s)
  end.

Definition parseInt_string (s : string) : jsval :=
  let '(neg, s1) := read_sign (trim_start s) in
  let '(radix, s2) := read_radix s1 in
  match read_digits radix s2 None with
  | Some n => JNum (if neg then - n else n)
  | None => JNaN
  end.

Definition parseInt (v : jsval) : jsval := parseInt_string (ToString v).

(** *** [Math.round] on double-precision numbers *)

(** The double of a non-negative integer (a literal, or the [length]
    of a buffer; exact below 2^53). *)
Definition Number (n : Z) : PrimFloat.float :=
  PrimFloat.of_uint63 (Uint63.of_Z n).

(** [buf.length] *)
Definition len (buf : list Byte.byte) : Z := Z.of_nat (length buf).

Abbreviation fsub := PrimFloat.sub.
Abbreviation fmul := PrimFloat.mul.
Abbreviation fdiv := PrimFloat.div.

(** [Math.round x]: the integer nearest to [x], ties towards
    +Infinity, computed exactly from the sign, mantissa and exponent.
    A negative zero result prints as [0] and is identified with it. *)
Definition Math_round (x : PrimFloat.float) : jsval :=
  match FloatOps.Prim2SF x with
  | SpecFloat.S754_zero _ => JNum 0
  | SpecFloat.S754_infinity s => JInfinity s
  | SpecFloat.S754_nan => JNaN
  | SpecFloat.S754_finite s m e =>
      let n := if s then Z.neg m else Z.pos m in
      if 0 <=? e then JNum (n * 2 ^ e)
      else JNum ((2 * n + 2 ^ (- e)) / (2 * 2 ^ (- e)))
  end.

End JS.
Import JS.

(** ** Exceptions and results *)

(** A thrown error object, by the two properties the handlers read:
    [error.status] and [error.message]. *)
Record js_error : Type := { err_status : jsval; err_message : jsval }.

(** What evaluating (or awaiting) an expression yields. *)
Inductive outcome (A : Type) : Type :=
| Returned (a : A)
| Thrown (e : js_error).
Arguments Returned {A} a.
Arguments Thrown {A} e.

(** Node's [Buffer] codec: [Buffer.from(v, 'base64')], which throws a
    [TypeError] on values it cannot read bytes from, and
    [buf.toString('base64')]. *)
Class BufferCodec : Type := {
  from_base64 : jsval -> outcome (list Byte.byte);
  to_base64 : list Byte.byte -> string
}.

(** ** The tinify client *)

Module Tinify.

(** One operation requested from the service on a source. *)
Inductive command : Type :=
| Resize (method : string) (width height : jsval)
| Convert (type : string)
| Transform (background : jsval).

(** A [Source]: the uploaded bytes and the operations chained on them,
    oldest first. *)
Record Source : Type := { input : list Byte.byte; commands : list command }.

(** A request sent to the service. *)
Inductive api_call : Type :=
| Shrink (bytes : list Byte.byte)
| Result (cmds : list command)
| Validate.

(** The module object [tinify]: its [compressionCount] property (unset
    until the service has reported a count), the remote service behind
    the configured key, and the requests sent so far. *)
Record client (Service : Type) : Type := {
  compressionCount : jsval;
  service : Service;
  requests : list api_call
}.
Arguments compressionCount {Service} _.
Arguments service {Service} _.
Arguments requests {Service} _.

(** The behaviour of the service and of the client's bookkeeping: what
    awaiting [toBuffer()] and [validate()] yields, and the count and
    service state they leave. *)
Class Backend (Service : Type) : Type := {
  await_toBuffer :
    Source -> jsval * Service -> outcome (list Byte.byte) * (jsval * Service);
  await_validate :
    jsval * Service -> outcome unit * (jsval * Service)
}.

Section Client.
Context {Service : Type} {backend : Backend Service}.

(** [tinify.fromBuffer(buf)]: starts the upload. *)
Definition fromBuffer (buf : list Byte.byte) (t : client Service)
  : Source * client Service :=
  ({| input := buf; commands := [] |},
   {| compressionCount := compressionCount t; service := service t;
      requests := requests t ++ [Shrink buf] |}).

(** [source.resize({method, width, height})] *)
Definition resize (s : Source) (method : string) (width height : jsval) : Source :=
  {| input := input s; commands := commands s ++ [Resize method width height] |}.

(** [source.convert({type})] *)
Definition convert (s : Source) (type : string) : Source :=
  {| input := input s; commands := commands s ++ [Convert type] |}.

(** [source.transform({background})] *)
Definition transform (s : Source) (background : jsval) : Source :=
  {| input := input s; commands := commands s ++ [Transform background] |}.

(** [await source.toBuffer()] *)
Definition toBuffer (s : Source) (t : client Service)
  : outcome (list Byte.byte) * client Service :=
  let '(r, (count, sv)) := await_toBuffer s (compressionCount t, service t) in
  (r, {| compressionCount := count; service := sv;
         requests := requests t ++ [Result (commands s)] |}).

(** [await tinify.validate()] *)
Definition validate (t : client Service) : outcome unit * client Service :=
  let '(r, (count, sv)) := await_validate (compressionCount t, service t) in
  (r, {| compressionCount := count; service := sv;
         requests := requests t ++ [Validate] |}).

End Client.
End Tinify.

(** ** Computations of a handler body

    Code inside a [try] block: it reads and updates the tinify client
    and either returns or throws. *)

Definition M (Service A : Type) : Type :=
  Tinify.client Service -> outcome A * Tinify.client Service.

Definition ret {Service A} (a : A) : M Service A := fun t => (Returned a, t).

Definition bind {Service A B} (m : M Service A) (k : A -> M Service B)
  : M Service B :=
  fun t =>
    match m t with
    | (Returned a, t') => k a t'
    | (Thrown e, t') => (Thrown e, t')
    end.

(** An expression that may throw and touches no state. *)
Definition lift {Service A} (o : outcome A) : M Service A := fun t => (o, t).

(** A read of the client object. *)
Definition gets {Service A} (f : Tinify.client Service -> A) : M Service A :=
  fun t => (Returned (f t), t).

(** A call that cannot throw. *)
Definition call {Service A}
  (f : Tinify.client Service -> A * Tinify.client Service) : M Service A :=
  fun t => let '(a, t') := f t in (Returned a, t').

Notation "'let*' x ':=' m 'in' k" := (bind m (fun x => k))
  (at level 10, x name, m at level 100, k at level 200).

(** ** Express requests and responses *)

Module Req.
(** [req.body] as the JSON or multipart parser left it, and [req.file]
    (by its [buffer]) when multer stored an upload. *)
Record t : Type := { body : gmap string jsval; file : option (list Byte.byte) }.
End Req.

(** A property read [o.k] (also through destructuring): [undefined]
    when the object has no such property. *)
Definition prop (o : gmap string jsval) (k : string) : jsval :=
  default JUndefined (o !! k).

Module Res.

Inductive payload : Type :=
| Unsent
| Json (obj : list (string * jsval))
| Raw (bytes : list Byte.byte).

(** The response as the handler shaped it: the status code, the headers
    it set itself, and the object or buffer it sent. *)
Record t : Type := { status : Z; headers : list (string * string); sent : payload }.

(** The [res] object a handler receives. *)
Definition fresh : t := {| status := 200; headers := []; sent := Unsent |}.

(** [res.status(code)] *)
Definition set_status (code : Z) (r : t) : t :=
  {| status := code; headers := headers r; sent := sent r |}.

(** [res.set({...})] *)
Definition set (hs : list (string * string)) (r : t) : t :=
  {| status := status r; headers := headers r ++ hs; sent := sent r |}.

(** [res.json(obj)] *)
Definition json (obj : list (string * jsval)) (r : t) : t :=
  {| status := status r; headers := headers r; sent := Json obj |}.

(** [res.send(buffer)] *)
Definition send (bytes : list Byte.byte) (r : t) : t :=
  {| status := status r; headers := headers r; sent := Raw bytes |}.

(** The value of a header, if the handler set it. *)
Fixpoint header (name : string) (hs : list (string * string)) : option string :=
  match hs with
  | [] => None
  | (k, v) :: rest => if String.eqb k name then Some v else header name rest
  end.

(** The value of a field of the JSON object sent, if any. *)
Fixpoint lookup_field (name : string) (obj : list (string * jsval)) : option jsval :=
  match obj with
  | [] => None
  | (k, v) :: rest => if String.eqb k name then Some v else lookup_field name rest
  end.

Definition field (name : string) (r : t) : option jsval :=
  match sent r with
  | Json obj => lookup_field name obj
  | _ => None
  end.

End Res.

(** ** The current server *)

Module Options.
(** The [options] argument of [compressImage]. *)
Record t : Type := {
  format : jsval; width : jsval; height : jsval; background : jsval
}.
End Options.

Module Compressed.
(** The object [compressImage] returns. *)
Record t : Type := { buffer : list Byte.byte; format : jsval }.
End Compressed.

(** [try { body } catch (error) { handler }] around a handler body that
    ends in a response. *)
Definition try_catch {Service}
  (body : M Service Res.t) (handler : js_error -> Res.t)
  (t : Tinify.client Service) : Res.t * Tinify.client Service :=
  match body t with
  | (Returned r, t') => (r, t')
  | (Thrown error, t') => (handler error, t')
  end.

Section Server.
Context {Service : Type} {backend : Tinify.Backend Service} {codec : BufferCodec}.

(** [async function compressImage(imageBuffer, options)] *)
Definition compressImage (imageBuffer : list Byte.byte) (options : Options.t)
  : M Service Compressed.t :=
  let format := Options.format options in
  let width := Options.width options in
  let height := Options.height options in
  let background := Options.background options in
  let* source := call (Tinify.fromBuffer imageBuffer) in
  let result := source in
  let result :=
    if truthy (or_else width height)
    then Tinify.resize result "fit"
           (if truthy width then parseInt width else JNum 9999)
           (if truthy height then parseInt height else JNum 9999)
    else result in
  let outputFormat := or_else format (JStr "png") in
  let result :=
    if negb (strict_eq_str outputFormat "png")
    then Tinify.convert result
           ("image/" +:+
            ToString (if strict_eq_str outputFormat "jpg"
                      then JStr "jpeg" else outputFormat))
    else result in
  let result :=
    if strict_eq_str outputFormat "jpeg" || strict_eq_str outputFormat "jpg"
    then Tinify.transform result (or_else background (JStr "white"))
    else result in
  let* compressedBuffer := Tinify.toBuffer result in
  ret {| Compressed.buffer := compressedBuffer;
         Compressed.format := outputFormat |}.

(** [function handleCompressionError(error, res)] *)
Definition handleCompressionError (error : js_error) (res : Res.t) : Res.t :=
  if strict_eq_num (err_status error) 401 then
    Res.json [("error", JStr "Invalid API key");
              ("message", JStr "Check your TINIFY_API_KEY in .env file")]
             (Res.set_status 401 res)
  else if strict_eq_num (err_status error) 429 then
    Res.json [("error", JStr "Rate limited");
              ("message",
               JStr "Monthly compression limit reached (500 for free tier)")]
             (Res.set_status 429 res)
  else
    Res.json [("error", JStr "Compression failed");
              ("message", err_message error)]
             (Res.set_status 500 res).

(** [app.get('/api/status', ...)] *)
Definition get_api_status (res : Res.t)
  : Tinify.client Service -> Res.t * Tinify.client Service :=
  try_catch
    (let* _ := Tinify.validate in
     let* count := gets Tinify.compressionCount in
     ret (Res.json [("status", JStr "ok");
                    ("compressionCount", or_else count (JNum 0));
                    ("message", JStr "API key validated successfully")]
                   res))
    (fun error =>
       Res.json [("status", JStr "error");
                 ("error", JStr "Invalid API key");
                 ("message", err_message error)]
                (Res.set_status 401 res)).

(** [app.post('/api/compress', ...)] *)
Definition post_api_compress (req : Req.t) (res : Res.t)
  : Tinify.client Service -> Res.t * Tinify.client Service :=
  try_catch
    (let image := prop (Req.body req) "image" in
     let format := prop (Req.body req) "format" in
     let width := prop (Req.body req) "width" in
     let height := prop (Req.body req) "height" in
     let background := prop (Req.body req) "background" in
     if negb (truthy image) then
       ret (Res.json [("error", JStr "Missing image data");
                      ("message",
                       JStr "Please provide base64-encoded image data")]
                     (Res.set_status 400 res))
     else
       let* imageBuffer := lift (from_base64 image) in
       let* result :=
         compressImage imageBuffer
           {| Options.format := format; Options.width := width;
              Options.height := height; Options.background := background |} in
       let* count := gets Tinify.compressionCount in
       ret (Res.json
              [("success", JBool true);
               ("data", JStr (to_base64 (Compressed.buffer result)));
               ("originalSize", JNum (len imageBuffer));
               ("compressedSize", JNum (len (Compressed.buffer result)));
               ("savings",
                Math_round
                  (fmul (fsub (Number 1)
                           (fdiv (Number (len (Compressed.buffer result)))
                                 (Number (len imageBuffer))))
                        (Number 100)));
               ("compressionCount", count)]
              res))
    (fun error => handleCompressionError error res).

(** [app.post('/api/compress/binary', upload.single('image'), ...)] *)
Definition post_api_compress_binary (req : Req.t) (res : Res.t)
  : Tinify.client Service -> Res.t * Tinify.client Service :=
  try_catch
    (match Req.file req with
     | None =>
         ret (Res.json [("error", JStr "Missing image data");
                        ("message", JStr "Please provide image file")]
                       (Res.set_status 400 res))
     | Some file_buffer =>
         let format := prop (Req.body req) "format" in
         let width := prop (Req.body req) "width" in
         let height := prop (Req.body req) "height" in
         let background := prop (Req.body req) "background" in
         let imageBuffer := file_buffer in
         let* result :=
           compressImage imageBuffer
             {| Options.format := format; Options.width := width;
                Options.height := height; Options.background := background |} in
         let* count := gets Tinify.compressionCount in
         let res :=
           Res.set
             [("Content-Type", "image/" +:+ ToString (Compressed.format result));
              ("X-Original-Size", ToString (JNum (len imageBuffer)));
              ("X-Compressed-Size",
               ToString (JNum (len (Compressed.buffer result))));
              ("X-Savings",
               ToString
                 (Math_round
                    (fmul (fsub (Number 1)
                             (fdiv (Number (len (Compressed.buffer result)))
                                   (Number (len imageBuffer))))
                          (Number 100))));
              ("X-Compression-Count", ToString (or_else count (JNum 0)))]
             res in
         ret (Res.send (Compressed.buffer result) res)
     end)
    (fun error => handleCompressionError error res).

End Server.

(** ** The older server ([server.js])

    One JSON endpoint whose handler builds the chain and classifies
    errors inline. *)

Module Legacy.
Section Server.
Context {Service : Type} {backend : Tinify.Backend Service} {codec : BufferCodec}.

(** [app.post('/api/compress', ...)] of [server.js] *)
Definition post_api_compress (req : Req.t) (res : Res.t)
  : Tinify.client Service -> Res.t * Tinify.client Service :=
  try_catch
    (let image := prop (Req.body req) "image" in
     let format := prop (Req.body req) "format" in
     let width := prop (Req.body req) "width" in
     let height := prop (Req.body req) "height" in
     let background := prop (Req.body req) "background" in
     if negb (truthy image) then
       ret (Res.json [("error", JStr "Missing image data");
                      ("message",
                       JStr "Please provide base64-encoded image data")]
                     (Res.set_status 400 res))
     else
       let* imageBuffer := lift (from_base64 image) in
       let* source := call (Tinify.fromBuffer imageBuffer) in
       let result := source in
       let result :=
         if truthy (or_else width height)
         then Tinify.resize result "fit"
                (if truthy width then parseInt width else JNum 9999)
                (if truthy height then parseInt height else JNum 9999)
         else result in
       let outputFormat := or_else format (JStr "png") in
       let result :=
         if negb (strict_eq_str outputFormat "png")
         then Tinify.convert result
                ("image/" +:+
                 ToString (if strict_eq_str outputFormat "jpg"
                           then JStr "jpeg" else outputFormat))
         else result in
       let result :=
         if strict_eq_str outputFormat "jpeg" || strict_eq_str outputFormat "jpg"
         then Tinify.transform result (or_else background (JStr "white"))
         else result in
       let* compressedBuffer := Tinify.toBuffer result in
       let* count := gets Tinify.compressionCount in
       ret (Res.json
              [("success", JBool true);
               ("data", JStr (to_base64 compressedBuffer));
               ("originalSize", JNum (len imageBuffer));
               ("compressedSize", JNum (len compressedBuffer));
               ("savings",
                Math_round
                  (fmul (fsub (Number 1)
                           (fdiv (Number (len compressedBuffer))
                                 (Number (len imageBuffer))))
                        (Number 100)));
               ("compressionCount", count)]
              res))
    (fun error =>
       if strict_eq_num (err_status error) 401 then
         Res.json [("error", JStr "Invalid API key");
                   ("message", JStr "Check your TINIFY_API_KEY in .env file")]
                  (Res.set_status 401 res)
       else if strict_eq_num (err_status error) 429 then
         Res.json [("error", JStr "Rate limited");
                   ("message",
                    JStr "Monthly compression limit reached (500 for free tier)")]
                  (Res.set_status 429 res)
       else
         Res.json [("error", JStr "Compression failed");
                   ("message", err_message error)]
                  (Res.set_status 500 res)).

End Server.
End Legacy.

(** ** Derived notions used in the statements *)

(** The three stages of the chain as the specification describes them,
    each present or absent according to the options. *)
Definition resize_stage (o : Options.t) : list Tinify.command :=
  if truthy (Options.width o) || truthy (Options.height o)
  then [Tinify.Resize "fit"
          (if truthy (Options.width o) then parseInt (Options.width o) else JNum 9999)
          (if truthy (Options.height o) then parseInt (Options.height o) else JNum 9999)]
  else [].

Definition resolved_format (o : Options.t) : jsval :=
  or_else (Options.format o) (JStr "png").

Definition convert_stage (o : Options.t) : list Tinify.command :=
  if decide (resolved_format o = JStr "png") then []
  else [Tinify.Convert
          ("image/" +:+
           (if decide (resolved_format o = JStr "jpg") then "jpeg"
            else ToString (resolved_format o)))].

Definition background_stage (o : Options.t) : list Tinify.command :=
  if decide (resolved_format o = JStr "jpeg" \/ resolved_format o = JStr "jpg")
  then [Tinify.Transform (or_else (Options.background o) (JStr "white"))]
  else [].

(** The source [compressImage] hands to [toBuffer]. *)
Definition chained (buf : list Byte.byte) (o : Options.t) : Tinify.Source :=
  {| Tinify.input := buf;
     Tinify.commands := resize_stage o ++ convert_stage o ++ background_stage o |}.

(** The client once [fromBuffer] has started the upload. *)
Definition uploading {Service} (buf : list Byte.byte) (t : Tinify.client Service)
  : Tinify.client Service :=
  snd (Tinify.fromBuffer buf t).

(** The position of an operation in the order resize, convert,
    background fill. *)
Definition stage_rank (c : Tinify.command) : nat :=
  match c with
  | Tinify.Resize _ _ _ => 0
  | Tinify.Convert _ => 1
  | Tinify.Transform _ => 2
  end.

(** The options both endpoints read from [req.body]. *)
Definition request_options (req : Req.t) : Options.t :=
  {| Options.format := prop (Req.body req) "format";
     Options.width := prop (Req.body req) "width";
     Options.height := prop (Req.body req) "height";
     Options.background := prop (Req.body req) "background" |}.

(** Savings as the data model derives them from the two sizes:
    round((1 - compressedSize / originalSize) * 100), in the
    arithmetic of JavaScript numbers. *)
Definition savings_percent (compressedSize originalSize : Z) : jsval :=
  Math_round
    (fmul (fsub (Number 1) (fdiv (Number compressedSize) (Number originalSize)))
          (Number 100)).

(** [true] when [needle] occurs in [s]. *)
Fixpoint contains (needle s : string) : bool :=
  String.prefix needle s ||
  match s with
  | String _ rest => contains needle rest
  | EmptyString => false
  end.

(** A dimension as the data model has it: absent, or a positive
    integer (a number in a JSON body, its decimal numeral in a
    multipart form). *)
Inductive dimension : jsval -> Prop :=
| dim_absent : dimension JUndefined
| dim_number (n : Z) : 0 < n -> dimension (JNum n)
| dim_numeral (n : Z) : 0 < n -> dimension (JStr (string_of_Z n)).

(** The value of a dimension that is provided. *)
Definition dimension_value (v : jsval) (n : Z) : Prop :=
  0 < n /\ (v = JNum n \/ v = JStr (string_of_Z n)).



(** ** A sample service

    A stand-in for the parameters of the development, used to run the
    handlers on concrete requests: the service keeps the monthly count
    (negative for a revoked key), answers every upload with the first
    half of its bytes, and refuses uploads once the count has reached
    500. *)

Module Sample.

#[export] Instance backend : Tinify.Backend Z := {
  await_toBuffer src st :=
    let '(_, used) := st in
    if used <? 0
    then (Thrown {| err_status := JNum 401;
                    err_message := JStr "Credentials are invalid." |},
          (fst st, used))
    else if 500 <=? used
    then (Thrown {| err_status := JNum 429;
                    err_message := JStr "Your monthly limit has been exceeded." |},
          (JNum used, used))
    else (Returned (take (length (Tinify.input src) / 2)%nat (Tinify.input src)),
          (JNum (used + 1), used + 1));
  await_validate st :=
    let '(_, used) := st in
    if used <? 0
    then (Thrown {| err_status := JNum 401;
                    err_message := JStr "Credentials are invalid." |},
          (fst st, used))
    else (Returned tt, (JNum used, used))
}.

(** A codec that reads one byte per character of a string and refuses
    every other value. *)
#[export] Instance codec : BufferCodec := {
  from_base64 v :=
    match v with
    | JStr s => Returned (list_byte_of_string s)
    | _ => Thrown {| err_status := JUndefined;
                     err_message := JStr "The first argument must be of type string" |}
    end;
  to_base64 := string_of_list_byte
}.

Definition unused : Tinify.client Z :=
  {| Tinify.compressionCount := JUndefined; Tinify.service := 0;
     Tinify.requests := [] |}.

Definition exhausted : Tinify.client Z :=
  {| Tinify.compressionCount := JNum 500; Tinify.service := 500;
     Tinify.requests := [] |}.

Definition revoked : Tinify.client Z :=
  {| Tinify.compressionCount := JUndefined; Tinify.service := -1;
     Tinify.requests := [] |}.

(** Eight bytes standing for an image. *)
Definition image_bytes : list Byte.byte := list_byte_of_string "PNGDATA!".

(** A request that carries the image both ways (a body field and an
    upload) and asks for a jpg 800 wide. *)
Definition jpg_request : Req.t :=
  {| Req.body := {[ "image" := JStr "PNGDATA!"; "format" := JStr "jpg";
                    "width" := JNum 800 ]};
     Req.file := Some image_bytes |}.

(** A request with neither an image field nor an upload. *)
Definition empty_request : Req.t :=
  {| Req.body := {[ "format" := JStr "webp" ]}; Req.file := None |}.

(** What [compressImage] returns for [jpg_request] on a fresh client,
    and the client it leaves. *)
Definition jpg_result : Compressed.t :=
  {| Compressed.buffer := list_byte_of_string "PNGD";
     Compressed.format := JStr "jpg" |}.

Definition used_once : Tinify.client Z :=
  {| Tinify.compressionCount := JNum 1; Tinify.service := 1;
     Tinify.requests :=
       [Tinify.Shrink image_bytes;
        Tinify.Result [Tinify.Resize "fit" (JNum 800) (JNum 9999);
                       Tinify.Convert "image/jpeg";
                       Tinify.Transform (JStr "white")]] |}.

End Sample.

(** ** The rest of the server: configuration and start-up *)

Module Cors.
(** The options object given to [cors(...)]. *)
Record options : Type := {
  origin : string;
  methods : list string;
  allowedHeaders : list string;
  exposedHeaders : list string
}.
End Cors.

(** [cors({...})] of the current server. *)
Definition cors_options : Cors.options :=
  {| Cors.origin := "*";
     Cors.methods := ["GET"; "POST"; "OPTIONS"];
     Cors.allowedHeaders := ["Content-Type"];
     Cors.exposedHeaders :=
       ["X-Original-Size"; "X-Compressed-Size"; "X-Savings";
        "X-Compression-Count"] |}.

Module Process.

(** A call of [console.log] or [console.error], by its arguments. *)
Inductive console_line : Type :=
| Log (args : list jsval)
| Error (args : list jsval).

(** How running the server file ends up: [process.exit(code)], or
    listening with the key given to [tinify.key]. *)
Inductive state (Service : Type) : Type :=
| Exited (code : Z) (console : list console_line)
| Listening (key port : jsval) (host : string)
    (console : list console_line) (t : Tinify.client Service).
Arguments Exited {Service} code console.
Arguments Listening {Service} key port host console t.

End Process.

(** [process.env.NAME]: a string, or [undefined] when unset. *)
Definition env_var (env : gmap string string) (name : string) : jsval :=
  match env !! name with
  | Some value => JStr value
  | None => JUndefined
  end.

Section Startup.
Context {Service : Type} {backend : Tinify.Backend Service}.

(** The top level of the server file, from the environment [dotenv]
    has filled: the key check, then [app.listen] with its callback,
    which validates the key once and only logs the outcome. *)
Definition main (env : gmap string string) (t : Tinify.client Service)
  : Process.state Service :=
  let PORT := or_else (env_var env "PORT") (JNum 3000) in
  let apiKey := env_var env "TINIFY_API_KEY" in
  if negb (truthy apiKey) then
    Process.Exited 1
      [Process.Error [JStr "Error: TINIFY_API_KEY not set in .env file"]]
  else
    let console :=
      [Process.Log
         [JStr ("Figma-Tinifier server running on port " +:+ ToString PORT)];
       Process.Log [JStr "Validating API key..."]] in
    match Tinify.validate t with
    | (Returned _, t') =>
        Process.Listening apiKey PORT "0.0.0.0"
          (console ++
           [Process.Log [JStr "API key validated successfully"];
            Process.Log
              [JStr ("Compressions used this month: " +:+
                     ToString (or_else (Tinify.compressionCount t') (JNum 0))
                     +:+ "/500")]])
          t'
    | (Thrown error, t') =>
        Process.Listening apiKey PORT "0.0.0.0"
          (console ++
           [Process.Error [JStr "API key validation failed:";
                           err_message error]])
          t'
    end.

End Startup.

(** ** Further notions used in the statements *)

(** The values [ToBoolean] sends to [false]. *)
Definition falsy_values : list jsval :=
  [JUndefined; JNull; JNaN; JBool false; JNum 0; JStr ""].

(** [o] with another [background]. *)
Definition with_background (o : Options.t) (background : jsval) : Options.t :=
  {| Options.format := Options.format o; Options.width := Options.width o;
     Options.height := Options.height o; Options.background := background |}.

(** [o] with another [format]. *)
Definition with_format (o : Options.t) (format : jsval) : Options.t :=
  {| Options.format := format; Options.width := Options.width o;
     Options.height := Options.height o;
     Options.background := Options.background o |}.




(** The names of the headers a response sets. *)
Definition header_names (r : Res.t) : list string := map fst (Res.headers r).


(** An error object as the handlers send it. *)
Definition error_body (p : Res.payload) : Prop :=
  exists e message, p = Res.Json [("error", JStr e); ("message", message)].

(** Further requests for the sample service. *)
Module Scenario.

(** A webp upload 600 wide, the width written with a space and a
    unit, and a background that webp does not use. *)
Definition webp_request : Req.t :=
  {| Req.body := {[ "image" := JStr "PNGDATA!"; "format" := JStr "webp";
                    "width" := JStr " 600px"; "background" := JStr "black" ]};
     Req.file := Some Sample.image_bytes |}.

Definition webp_result : Compressed.t :=
  {| Compressed.buffer := list_byte_of_string "PNGD";
     Compressed.format := JStr "webp" |}.

Definition after_webp : Tinify.client Z :=
  {| Tinify.compressionCount := JNum 1; Tinify.service := 1;
     Tinify.requests :=
       [Tinify.Shrink Sample.image_bytes;
        Tinify.Result [Tinify.Resize "fit" (JNum 600) (JNum 9999);
                       Tinify.Convert "image/webp"]] |}.

(** Options with a width of 0 beside a height of 600. *)
Definition zero_width : Options.t :=
  {| Options.format := JUndefined; Options.width := JNum 0;
     Options.height := JNum 600; Options.background := JUndefined |}.


(** An environment with a key and no port, and one without a key. *)
Definition env_with_key : gmap string string :=
  {[ "TINIFY_API_KEY" := "k3y" ]}.

Definition env_without_key : gmap string string := {[ "PORT" := "8080" ]}.

End Scenario.

(** * Properties *)

(** ** JavaScript primitives *)

Lemma strict_eq_str_spec v lit : strict_eq_str v lit = true <-> v = JStr lit.
Proof.
  destruct v; simpl; try (split; [discriminate | congruence]).
  rewrite String.eqb_eq. split; congruence.
Qed.

Lemma strict_eq_str_decide v lit :
  strict_eq_str v lit = bool_decide (v = JStr lit).
Proof.
  destruct (strict_eq_str v lit) eqn:E.
  - apply strict_eq_str_spec in E. symmetry. by apply bool_decide_eq_true.
  - symmetry. apply bool_decide_eq_false. intros H.
    apply strict_eq_str_spec in H. congruence.
Qed.

Lemma strict_eq_num_spec v n : strict_eq_num v n = true <-> v = JNum n.
Proof.
  destruct v; simpl; try (split; [discriminate | congruence]).
  rewrite Z.eqb_eq. split; congruence.
Qed.

Lemma truthy_or_else a b : truthy (or_else a b) = truthy a || truthy b.
Proof. unfold or_else. destruct (truthy a) eqn:E; simpl; by rewrite ?E. Qed.

(** *** [parseInt] reads back the decimal numeral of an integer *)












Example parseInt_px : parseInt (JStr "  800px") = JNum 800.
Proof. reflexivity. Qed.

Example parseInt_hex : parseInt (JStr "-0x1F") = JNum (-31).
Proof. reflexivity. Qed.

Example parseInt_word : parseInt (JStr "wide") = JNaN.
Proof. reflexivity. Qed.

Example parseInt_null : parseInt JNull = JNaN.
Proof. reflexivity. Qed.

(** *** [Math.round] and the savings formula on doubles *)

Example round_half_up :
  Math_round (fdiv (Number 5) (Number 2)) = JNum 3
  /\ Math_round (PrimFloat.opp (fdiv (Number 5) (Number 2))) = JNum (-2).
Proof. split; vm_compute; reflexivity. Qed.

(** The figures of the README: 102400 bytes compressed to 51200. *)
Example savings_readme : savings_percent 51200 102400 = JNum 50.
Proof. vm_compute. reflexivity. Qed.

Example savings_none_and_all :
  savings_percent 5 5 = JNum 0 /\ savings_percent 0 5 = JNum 100
  /\ savings_percent 7 5 = JNum (-40).
Proof. repeat split; vm_compute; reflexivity. Qed.

(** The formula is evaluated on doubles: 17 bytes out of 40 is 57.5
    percent saved in exact arithmetic, but [(1 - 17/40) * 100] is the
    double just below 57.5, which rounds to 57. *)
Example savings_tie_in_doubles : savings_percent 17 40 = JNum 57.
Proof. vm_compute. reflexivity. Qed.

(** On an empty original the division is by zero. *)
Example savings_empty_original :
  savings_percent 3 0 = JInfinity true /\ savings_percent 0 0 = JNaN.
Proof. split; vm_compute; reflexivity. Qed.





Lemma dimension_provided v :
  dimension v -> v <> JUndefined -> exists n, dimension_value v n.
Proof.
  destruct 1 as [|n Hn|n Hn]; intros Hv; [congruence| |];
    exists n; split; auto.
Qed.

(** Only the resize stage holds a resize operation. *)
Lemma resize_in_chain o m w h :
  Tinify.Resize m w h ∈ resize_stage o ++ convert_stage o ++ background_stage o
  <-> Tinify.Resize m w h ∈ resize_stage o.
Proof.
  rewrite !elem_of_app. split; [|by left].
  intros [H|[H|H]]; auto; exfalso; revert H;
    unfold convert_stage, background_stage; case_decide;
    rewrite ?elem_of_nil, ?list_elem_of_singleton; auto; discriminate.
Qed.

(** On arbitrary values the resize stage is present exactly when
    [width || height] is truthy. *)
Lemma resize_requested_iff_truthy o :
  (exists m w h,
     Tinify.Resize m w h ∈ resize_stage o ++ convert_stage o ++ background_stage o)
  <-> truthy (Options.width o) || truthy (Options.height o) = true.
Proof.
  split.
  - intros (m & w & h & Hin). apply resize_in_chain in Hin.
    unfold resize_stage in Hin.
    destruct (truthy (Options.width o) || truthy (Options.height o)); [done|].
    by apply elem_of_nil in Hin.
  - intros E. eexists _, _, _. apply resize_in_chain.
    unfold resize_stage. rewrite E. apply list_elem_of_singleton. reflexivity.
Qed.

(** Outside the data model: a width of 0 or an empty form field is
    falsy, and alone requests no resize. *)
Example resize_stage_falsy_width :
  resize_stage {| Options.format := JUndefined; Options.width := JNum 0;
                  Options.height := JUndefined; Options.background := JUndefined |} = []
  /\ resize_stage {| Options.format := JUndefined; Options.width := JStr "";
                     Options.height := JUndefined; Options.background := JUndefined |} = [].
Proof. split; reflexivity. Qed.

(** Only the convert stage holds a conversion. *)
Lemma convert_in_chain o type :
  Tinify.Convert type ∈ resize_stage o ++ convert_stage o ++ background_stage o
  <-> Tinify.Convert type ∈ convert_stage o.
Proof.
  rewrite !elem_of_app. split; [|by right; left].
  intros [H|[H|H]]; auto; exfalso; revert H;
    unfold resize_stage, background_stage; case_match;
    rewrite ?elem_of_nil, ?list_elem_of_singleton; auto; discriminate.
Qed.

Lemma convert_stage_jpg o :
  resolved_format o = JStr "jpg" ->
  convert_stage o = [Tinify.Convert "image/jpeg"].
Proof.
  intros E. unfold convert_stage. rewrite E.
  repeat case_decide; try discriminate; try contradiction; reflexivity.
Qed.

(** ** The transform pipeline *)

Section Pipeline.
Context {Service : Type} {backend : Tinify.Backend Service} {codec : BufferCodec}.

Implicit Types (t : Tinify.client Service) (o : Options.t) (buf : list Byte.byte).

Lemma resolved_format_cases o :
  resolved_format o = JStr "png" \/
  resolved_format o = JStr "jpg" \/
  resolved_format o = JStr "jpeg" \/
  (resolved_format o <> JStr "png" /\ resolved_format o <> JStr "jpg" /\
   resolved_format o <> JStr "jpeg").
Proof.
  destruct (decide (resolved_format o = JStr "png")); auto.
  destruct (decide (resolved_format o = JStr "jpg")); auto.
  destruct (decide (resolved_format o = JStr "jpeg")); auto.
  right; right; right; auto.
Qed.

(** [compressImage] is one upload followed by one [toBuffer] on the
    three stages in order; it returns the resolved format unchanged. *)
Lemma compressImage_run buf o t :
  compressImage buf o t =
  match Tinify.toBuffer (chained buf o) (uploading buf t) with
  | (Returned b, t') =>
      (Returned {| Compressed.buffer := b;
                   Compressed.format := resolved_format o |}, t')
  | (Thrown e, t') => (Thrown e, t')
  end.
Proof.
  unfold compressImage, chained, uploading, bind, call, ret.
  unfold resize_stage, convert_stage, background_stage.
  fold (resolved_format o).
  rewrite truthy_or_else, !strict_eq_str_decide.
  destruct (Tinify.fromBuffer buf t) as [src t1] eqn:Hsrc.
  unfold Tinify.fromBuffer in Hsrc. injection Hsrc as <- <-.
  simpl.
  assert (Hchain :
    (let result := {| Tinify.input := buf; Tinify.commands := [] |} in
     let result :=
       if truthy (Options.width o) || truthy (Options.height o)
       then Tinify.resize result "fit"
              (if truthy (Options.width o) then parseInt (Options.width o) else JNum 9999)
              (if truthy (Options.height o) then parseInt (Options.height o) else JNum 9999)
       else result in
     let result :=
       if negb (bool_decide (resolved_format o = JStr "png"))
       then Tinify.convert result
              ("image/" +:+
               ToString (if bool_decide (resolved_format o = JStr "jpg")
                         then JStr "jpeg" else resolved_format o))
       else result in
     if bool_decide (resolved_format o = JStr "jpeg")
        || bool_decide (resolved_format o = JStr "jpg")
     then Tinify.transform result (or_else (Options.background o) (JStr "white"))
     else result)
    = {| Tinify.input := buf;
         Tinify.commands :=
           (if truthy (Options.width o) || truthy (Options.height o)
            then [Tinify.Resize "fit"
                    (if truthy (Options.width o) then parseInt (Options.width o) else JNum 9999)
                    (if truthy (Options.height o) then parseInt (Options.height o) else JNum 9999)]
            else []) ++
           (if decide (resolved_format o = JStr "png") then []
            else [Tinify.Convert
                    ("image/" +:+
                     (if decide (resolved_format o = JStr "jpg") then "jpeg"
                      else ToString (resolved_format o)))]) ++
           (if decide (resolved_format o = JStr "jpeg" \/ resolved_format o = JStr "jpg")
            then [Tinify.Transform (or_else (Options.background o) (JStr "white"))]
            else []) |}).
  { destruct (truthy (Options.width o) || truthy (Options.height o));
      destruct (resolved_format_cases o) as [E|[E|[E|(E1 & E2 & E3)]]];
      repeat case_bool_decide; repeat case_decide;
      try congruence; try (exfalso; intuition congruence);
      try rewrite E in *; try discriminate; reflexivity. }
  cbv zeta in Hchain. rewrite Hchain.
  destruct (Tinify.toBuffer _ _) as [[b|e] t']; reflexivity.
Qed.

End Pipeline.

(** ** The handlers, one step at a time *)

Section Handlers.
Context {Service : Type} {backend : Tinify.Backend Service} {codec : BufferCodec}.

Implicit Types (t : Tinify.client Service) (req : Req.t) (res : Res.t).

(** A run of [compressImage] sends the upload and then the chain. *)
Lemma compressImage_requests buf o t :
  Tinify.requests (snd (compressImage buf o t)) =
  Tinify.requests t ++
  [Tinify.Shrink buf;
   Tinify.Result (resize_stage o ++ convert_stage o ++ background_stage o)].
Proof.
  rewrite compressImage_run. unfold Tinify.toBuffer, uploading, chained. simpl.
  destruct (Tinify.await_toBuffer _ _) as [[b|e] [count sv]]; simpl;
    by rewrite <- app_assoc.
Qed.

Lemma compressImage_format buf o t result t' :
  compressImage buf o t = (Returned result, t') ->
  Compressed.format result = resolved_format o.
Proof.
  rewrite compressImage_run.
  destruct (Tinify.toBuffer _ _) as [[b|e] t1]; intros [= <- <-]; reflexivity.
Qed.

(** The JSON endpoint once the image has been decoded. *)
Lemma post_api_compress_run req res t buf :
  truthy (prop (Req.body req) "image") = true ->
  from_base64 (prop (Req.body req) "image") = Returned buf ->
  post_api_compress req res t =
  match compressImage buf (request_options req) t with
  | (Returned result, t') =>
      (Res.json
         [("success", JBool true);
          ("data", JStr (to_base64 (Compressed.buffer result)));
          ("originalSize", JNum (len buf));
          ("compressedSize", JNum (len (Compressed.buffer result)));
          ("savings", savings_percent (len (Compressed.buffer result)) (len buf));
          ("compressionCount", Tinify.compressionCount t')]
         res, t')
  | (Thrown e, t') => (handleCompressionError e res, t')
  end.
Proof.
  intros Himage Hdecode.
  unfold post_api_compress, try_catch, bind, lift, gets, ret, request_options.
  rewrite Himage, Hdecode. simpl.
  destruct (compressImage _ _ t) as [[result|e] t']; reflexivity.
Qed.

(** The JSON endpoint when [Buffer.from] throws. *)
Lemma post_api_compress_undecodable req res t e :
  truthy (prop (Req.body req) "image") = true ->
  from_base64 (prop (Req.body req) "image") = Thrown e ->
  post_api_compress req res t = (handleCompressionError e res, t).
Proof.
  intros Himage Hdecode.
  unfold post_api_compress, try_catch, bind, lift.
  by rewrite Himage, Hdecode.
Qed.

Lemma post_api_compress_missing req res t :
  truthy (prop (Req.body req) "image") = false ->
  post_api_compress req res t =
  (Res.json [("error", JStr "Missing image data");
             ("message", JStr "Please provide base64-encoded image data")]
            (Res.set_status 400 res), t).
Proof.
  intros Himage. unfold post_api_compress, try_catch, ret. by rewrite Himage.
Qed.

(** The binary endpoint on an uploaded file. *)
Lemma post_api_compress_binary_run req res t buf :
  Req.file req = Some buf ->
  post_api_compress_binary req res t =
  match compressImage buf (request_options req) t with
  | (Returned result, t') =>
      (Res.send (Compressed.buffer result)
         (Res.set
            [("Content-Type", "image/" +:+ ToString (Compressed.format result));
             ("X-Original-Size", string_of_Z (len buf));
             ("X-Compressed-Size", string_of_Z (len (Compressed.buffer result)));
             ("X-Savings",
              ToString (savings_percent (len (Compressed.buffer result)) (len buf)));
             ("X-Compression-Count",
              ToString (or_else (Tinify.compressionCount t') (JNum 0)))]
            res), t')
  | (Thrown e, t') => (handleCompressionError e res, t')
  end.
Proof.
  intros Hfile.
  unfold post_api_compress_binary, try_catch, bind, gets, ret, request_options.
  rewrite Hfile.
  destruct (compressImage _ _ t) as [[result|e] t']; reflexivity.
Qed.

Lemma post_api_compress_binary_missing req res t :
  Req.file req = None ->
  post_api_compress_binary req res t =
  (Res.json [("error", JStr "Missing image data");
             ("message", JStr "Please provide image file")]
            (Res.set_status 400 res), t).
Proof.
  intros Hfile. unfold post_api_compress_binary, try_catch, ret. by rewrite Hfile.
Qed.

Lemma prop_absent (o : gmap string jsval) k : o !! k = None -> prop o k = JUndefined.
Proof. unfold prop. by intros ->. Qed.

(** The classifier answers 401, 429 or 500, never 400. *)
Lemma handleCompressionError_status e res :
  Res.status (handleCompressionError e res) = 401 \/
  Res.status (handleCompressionError e res) = 429 \/
  Res.status (handleCompressionError e res) = 500.
Proof.
  unfold handleCompressionError.
  destruct (strict_eq_num (err_status e) 401); [by left|].
  destruct (strict_eq_num (err_status e) 429); [by right; left|].
  by right; right.
Qed.

End Handlers.

(** ** The contract of the server *)

Section Contract.
Context {Service : Type} {backend : Tinify.Backend Service} {codec : BufferCodec}.

Implicit Types (t : Tinify.client Service) (req : Req.t) (res : Res.t).

(** C2: every run of [compressImage] sends the upload and then one
    chain made of the resize stage, the convert stage and the
    background stage, in that order (ranks strictly increase along the
    chain).  The convert stage is present exactly when the resolved
    format is not the string png, an absent format resolving to png;
    the background stage is present exactly when the resolved format is
    jpeg or jpg, and fills with [background || 'white']. *)
Theorem pipeline_stages_C2 buf (o : Options.t) t :
  let chain := resize_stage o ++ convert_stage o ++ background_stage o in
  Tinify.requests (snd (compressImage buf o t)) =
    Tinify.requests t ++ [Tinify.Shrink buf; Tinify.Result chain]
  /\ StronglySorted lt (map stage_rank chain)
  /\ (forall c, c ∈ resize_stage o -> stage_rank c = 0%nat)
  /\ (forall c, c ∈ convert_stage o -> stage_rank c = 1%nat)
  /\ (forall c, c ∈ background_stage o -> stage_rank c = 2%nat)
  /\ (convert_stage o <> [] <-> resolved_format o <> JStr "png")
  /\ (Options.format o = JUndefined -> resolved_format o = JStr "png")
  /\ (background_stage o <> [] <->
      resolved_format o = JStr "jpeg" \/ resolved_format o = JStr "jpg")
  /\ (forall c, c ∈ background_stage o ->
      c = Tinify.Transform
            (if truthy (Options.background o) then Options.background o
             else JStr "white"))
  /\ (Options.background o = JUndefined ->
      forall c, c ∈ background_stage o -> c = Tinify.Transform (JStr "white")).
Proof.
  intros chain. split; [apply compressImage_requests|].
  subst chain. unfold resize_stage, convert_stage, background_stage.
  repeat split.
  - destruct (truthy (Options.width o) || truthy (Options.height o));
      repeat case_decide; simpl;
      repeat (constructor; simpl; try lia).
  - intros c. case_match; [|by intros ?%elem_of_nil].
    by intros ->%list_elem_of_singleton.
  - intros c. case_decide; [by intros ?%elem_of_nil|].
    by intros ->%list_elem_of_singleton.
  - intros c. case_decide; [|by intros ?%elem_of_nil].
    by intros ->%list_elem_of_singleton.
  - by case_decide.
  - by case_decide.
  - unfold resolved_format, or_else. by intros ->.
  - by case_decide.
  - by case_decide.
  - intros c. case_decide; [|by intros ?%elem_of_nil].
    by intros ->%list_elem_of_singleton.
  - intros Hbg c. case_decide; [|by intros ?%elem_of_nil].
    intros ->%list_elem_of_singleton. unfold or_else. by rewrite Hbg.
Qed.


(** C1: on the binary endpoint, a successful request with format jpg
    asks the service for a conversion to image/jpeg, and the
    Content-Type header it answers with is image/jpg: the resolved
    format is returned as given, not normalized. *)
Theorem jpg_content_type_C1 req buf t result t' :
  Req.file req = Some buf ->
  Req.body req !! "format" = Some (JStr "jpg") ->
  compressImage buf (request_options req) t = (Returned result, t') ->
  (exists chain,
     Tinify.requests t' =
       Tinify.requests t ++ [Tinify.Shrink buf; Tinify.Result chain]
     /\ forall type, Tinify.Convert type ∈ chain <-> type = "image/jpeg")
  /\ Compressed.format result = JStr "jpg"
  /\ Res.header "Content-Type"
       (Res.headers (fst (post_api_compress_binary req Res.fresh t)))
     = Some "image/jpg".
Proof.
  intros Hfile Hformat Hrun.
  assert (resolved_format (request_options req) = JStr "jpg") as Hres.
  { unfold resolved_format, request_options, prop. simpl. by rewrite Hformat. }
  split; [|split].
  - exists (resize_stage (request_options req) ++
            convert_stage (request_options req) ++
            background_stage (request_options req)).
    split.
    + pose proof (compressImage_requests buf (request_options req) t) as Hreq.
      by rewrite Hrun in Hreq.
    + intros type. rewrite convert_in_chain, (convert_stage_jpg _ Hres).
      rewrite list_elem_of_singleton. split; congruence.
  - rewrite (compressImage_format _ _ _ _ _ Hrun). exact Hres.
  - rewrite (post_api_compress_binary_run _ _ _ _ Hfile), Hrun. simpl.
    by rewrite (compressImage_format _ _ _ _ _ Hrun), Hres.
Qed.

(** C3: a JSON request whose body has no image field, and a binary
    request with no uploaded file, are answered with status 400 and the
    missing-input error body; no request is sent to the service. *)
Theorem missing_input_C3 (req_json req_binary : Req.t) t :
  Req.body req_json !! "image" = None ->
  Req.file req_binary = None ->
  (let (r, t') := post_api_compress req_json Res.fresh t in
   Res.status r = 400
   /\ Res.sent r = Res.Json
        [("error", JStr "Missing image data");
         ("message", JStr "Please provide base64-encoded image data")]
   /\ Tinify.requests t' = Tinify.requests t)
  /\
  (let (r, t') := post_api_compress_binary req_binary Res.fresh t in
   Res.status r = 400
   /\ Res.sent r = Res.Json
        [("error", JStr "Missing image data");
         ("message", JStr "Please provide image file")]
   /\ Tinify.requests t' = Tinify.requests t).
Proof.
  intros Himage Hfile. split.
  - rewrite post_api_compress_missing; [done|].
    by rewrite (prop_absent _ _ Himage).
  - by rewrite post_api_compress_binary_missing.
Qed.

(** C4: the classifier answers a thrown error with status 401 as 401
    "Invalid API key", one with status 429 as 429 with a message that
    names the limit of 500, and every other one as 500 "Compression
    failed" with the error's own message; both endpoints answer every
    error thrown by [compressImage], and the JSON endpoint every error
    thrown while decoding the image, through it. *)
Theorem error_classifier_C4 (error : js_error) res :
  (err_status error = JNum 401 ->
     Res.status (handleCompressionError error res) = 401
     /\ Res.field "error" (handleCompressionError error res)
        = Some (JStr "Invalid API key"))
  /\ (err_status error = JNum 429 ->
     Res.status (handleCompressionError error res) = 429
     /\ exists message,
          Res.field "message" (handleCompressionError error res)
          = Some (JStr message)
          /\ contains "500" message = true)
  /\ (err_status error <> JNum 401 -> err_status error <> JNum 429 ->
     Res.status (handleCompressionError error res) = 500
     /\ Res.field "error" (handleCompressionError error res)
        = Some (JStr "Compression failed")
     /\ Res.field "message" (handleCompressionError error res)
        = Some (err_message error))
  /\ (forall req buf t t',
     truthy (prop (Req.body req) "image") = true ->
     from_base64 (prop (Req.body req) "image") = Returned buf ->
     compressImage buf (request_options req) t = (Thrown error, t') ->
     post_api_compress req res t = (handleCompressionError error res, t'))
  /\ (forall req buf t t',
     Req.file req = Some buf ->
     compressImage buf (request_options req) t = (Thrown error, t') ->
     post_api_compress_binary req res t = (handleCompressionError error res, t'))
  /\ (forall req t,
     truthy (prop (Req.body req) "image") = true ->
     from_base64 (prop (Req.body req) "image") = Thrown error ->
     post_api_compress req res t = (handleCompressionError error res, t)).
Proof.
  split; [|split; [|split; [|split; [|split]]]].
  - intros Hs. unfold handleCompressionError. rewrite Hs. by simpl.
  - intros Hs. unfold handleCompressionError. rewrite Hs. simpl.
    split; [done|]. eexists. split; [reflexivity|]. by vm_compute.
  - intros H401 H429. unfold handleCompressionError.
    destruct (strict_eq_num (err_status error) 401) eqn:E1.
    { by apply strict_eq_num_spec in E1. }
    destruct (strict_eq_num (err_status error) 429) eqn:E2.
    { by apply strict_eq_num_spec in E2. }
    by simpl.
  - intros req buf t t' Himage Hdecode Hrun.
    by rewrite (post_api_compress_run _ _ _ _ Himage Hdecode), Hrun.
  - intros req buf t t' Hfile Hrun.
    by rewrite (post_api_compress_binary_run _ _ _ _ Hfile), Hrun.
  - intros req t Himage Hdecode.
    apply (post_api_compress_undecodable _ _ _ _ Himage Hdecode).
Qed.


(** C7: the status endpoint validates the key; when validation
    succeeds it answers 200 with status ok and the compression count
    (0 while the count is unset), and when validation throws it answers
    401 with the error's message. *)
Theorem status_endpoint_C7 t :
  match Tinify.validate t with
  | (Returned _, t') =>
      get_api_status Res.fresh t =
        (Res.json [("status", JStr "ok");
                   ("compressionCount",
                    or_else (Tinify.compressionCount t') (JNum 0));
                   ("message", JStr "API key validated successfully")]
                  Res.fresh, t')
      /\ Res.status (fst (get_api_status Res.fresh t)) = 200
      /\ Res.field "status" (fst (get_api_status Res.fresh t)) = Some (JStr "ok")
      /\ Res.field "compressionCount" (fst (get_api_status Res.fresh t))
         = Some (if truthy (Tinify.compressionCount t')
                 then Tinify.compressionCount t' else JNum 0)
  | (Thrown error, t') =>
      snd (get_api_status Res.fresh t) = t'
      /\ Res.status (fst (get_api_status Res.fresh t)) = 401
      /\ Res.field "status" (fst (get_api_status Res.fresh t)) = Some (JStr "error")
      /\ Res.field "error" (fst (get_api_status Res.fresh t))
         = Some (JStr "Invalid API key")
      /\ Res.field "message" (fst (get_api_status Res.fresh t))
         = Some (err_message error)
  end.
Proof.
  unfold get_api_status, try_catch, bind, gets, ret.
  destruct (Tinify.validate t) as [[[]|error] t']; simpl; auto.
Qed.

(** C8: on every request, response object and client state, the inline
    handler of [server.js] and the handler built on [compressImage]
    send the same requests to the service (so the same chain, with the
    same arguments in the same order), leave the same client state and
    answer with the same response. *)
Theorem legacy_handler_C8 req res t :
  Legacy.post_api_compress req res t = post_api_compress req res t.
Proof.
  destruct (truthy (prop (Req.body req) "image")) eqn:Himage.
  2: { rewrite post_api_compress_missing by done.
       unfold Legacy.post_api_compress, try_catch, ret. by rewrite Himage. }
  destruct (from_base64 (prop (Req.body req) "image")) as [buf|e] eqn:Hdecode.
  2: { rewrite (post_api_compress_undecodable _ _ _ _ Himage Hdecode).
       unfold Legacy.post_api_compress, try_catch, bind, lift.
       by rewrite Himage, Hdecode. }
  rewrite (post_api_compress_run _ _ _ _ Himage Hdecode).
  unfold Legacy.post_api_compress, compressImage, request_options.
  unfold try_catch, bind, lift, call, gets, ret.
  rewrite Himage, Hdecode. simpl.
  destruct (Tinify.toBuffer _ _) as [[b|e] t1]; reflexivity.
Qed.

(** C9: a request rejected for missing input leaves the whole client
    untouched: no request has been sent, and the service behind it
    (where the monthly count lives) and the count last reported are
    as before.  Conversely a 400 answer is only ever given that way. *)
Theorem missing_input_no_call_C9 (req_json req_binary : Req.t) t :
  Req.body req_json !! "image" = None ->
  Req.file req_binary = None ->
  snd (post_api_compress req_json Res.fresh t) = t
  /\ snd (post_api_compress_binary req_binary Res.fresh t) = t
  /\ (forall req,
        Res.status (fst (post_api_compress req Res.fresh t)) = 400 ->
        snd (post_api_compress req Res.fresh t) = t)
  /\ (forall req,
        Res.status (fst (post_api_compress_binary req Res.fresh t)) = 400 ->
        snd (post_api_compress_binary req Res.fresh t) = t).
Proof.
  intros Himage Hfile. split; [|split; [|split]].
  - rewrite post_api_compress_missing; [done|].
    by rewrite (prop_absent _ _ Himage).
  - by rewrite post_api_compress_binary_missing.
  - intros req.
    destruct (truthy (prop (Req.body req) "image")) eqn:Ei.
    2: { by rewrite post_api_compress_missing. }
    destruct (from_base64 (prop (Req.body req) "image")) as [buf|e] eqn:Hd.
    2: { by rewrite (post_api_compress_undecodable _ _ _ _ Ei Hd). }
    rewrite (post_api_compress_run _ _ _ _ Ei Hd).
    destruct (compressImage _ _ t) as [[result|e] t1]; simpl; [discriminate|].
    intros H400.
    destruct (handleCompressionError_status e Res.fresh) as [E|[E|E]];
      rewrite E in H400; discriminate.
  - intros req. destruct (Req.file req) as [buf|] eqn:Hf.
    2: { by rewrite post_api_compress_binary_missing. }
    rewrite (post_api_compress_binary_run _ _ _ _ Hf).
    destruct (compressImage _ _ t) as [[result|e] t1]; simpl; [discriminate|].
    intros H400.
    destruct (handleCompressionError_status e Res.fresh) as [E|[E|E]];
      rewrite E in H400; discriminate.
Qed.

(** C10: a successful binary response carries the four headers
    X-Original-Size, X-Compressed-Size, X-Savings and
    X-Compression-Count, the last one being 0 when the client has no
    count; the compressionCount field of a successful JSON response is
    the client's count as it is, unset included. *)
Theorem metadata_headers_C10 req buf t result t' :
  compressImage buf (request_options req) t = (Returned result, t') ->
  (Req.file req = Some buf ->
   let hs := Res.headers (fst (post_api_compress_binary req Res.fresh t)) in
   Res.header "X-Original-Size" hs = Some (string_of_Z (len buf))
   /\ Res.header "X-Compressed-Size" hs
      = Some (string_of_Z (len (Compressed.buffer result)))
   /\ Res.header "X-Savings" hs
      = Some (ToString
                (savings_percent (len (Compressed.buffer result)) (len buf)))
   /\ Res.header "X-Compression-Count" hs
      = Some (ToString (if truthy (Tinify.compressionCount t')
                        then Tinify.compressionCount t' else JNum 0))
   /\ (Tinify.compressionCount t' = JUndefined ->
       Res.header "X-Compression-Count" hs = Some "0"))
  /\
  (truthy (prop (Req.body req) "image") = true ->
   from_base64 (prop (Req.body req) "image") = Returned buf ->
   Res.field "compressionCount" (fst (post_api_compress req Res.fresh t))
   = Some (Tinify.compressionCount t')).
Proof.
  intros Hrun. split.
  - intros Hfile.
    rewrite (post_api_compress_binary_run _ _ _ _ Hfile), Hrun. simpl.
    repeat split; auto. by intros ->.
  - intros Himage Hdecode.
    by rewrite (post_api_compress_run _ _ _ _ Himage Hdecode), Hrun.
Qed.

End Contract.

(** ** The contract on the sample service *)

Section Witnesses.
Import Sample.

Lemma sample_run :
  compressImage image_bytes (request_options jpg_request) unused
  = (Returned jpg_result, used_once).
Proof. vm_compute. reflexivity. Defined.

(** C1 on the sample service: the jpg upload is answered as image/jpg. *)
Lemma jpg_content_type_C1_witness :
  Req.file jpg_request = Some image_bytes
  /\ Req.body jpg_request !! "format" = Some (JStr "jpg")
  /\ compressImage image_bytes (request_options jpg_request) unused
     = (Returned jpg_result, used_once)
  /\ Res.header "Content-Type"
       (Res.headers (fst (post_api_compress_binary jpg_request Res.fresh unused)))
     = Some "image/jpg".
Proof.
  split; [reflexivity|]. split; [reflexivity|]. split; [exact sample_run|].
  exact (proj2 (proj2
    (jpg_content_type_C1 jpg_request image_bytes unused jpg_result used_once
       eq_refl eq_refl sample_run))).
Defined.

(** C2 on the sample service: the chain of the jpg request. *)
Lemma pipeline_stages_C2_witness :
  Tinify.requests
    (snd (compressImage image_bytes (request_options jpg_request) unused))
  = [Tinify.Shrink image_bytes;
     Tinify.Result [Tinify.Resize "fit" (JNum 800) (JNum 9999);
                    Tinify.Convert "image/jpeg";
                    Tinify.Transform (JStr "white")]].
Proof.
  exact (proj1
    (pipeline_stages_C2 image_bytes (request_options jpg_request) unused)).
Defined.

(** C3 on the sample service: the empty request is refused by both
    endpoints. *)
Lemma missing_input_C3_witness :
  Req.body empty_request !! "image" = None
  /\ Req.file empty_request = None
  /\ Res.status (fst (post_api_compress empty_request Res.fresh unused)) = 400
  /\ Res.status (fst (post_api_compress_binary empty_request Res.fresh unused)) = 400.
Proof.
  split; [reflexivity|]. split; [reflexivity|].
  pose proof (missing_input_C3 (codec := codec) empty_request empty_request unused
                eq_refl eq_refl) as [Hjson Hbinary].
  split.
  - destruct (post_api_compress empty_request Res.fresh unused). apply Hjson.
  - destruct (post_api_compress_binary empty_request Res.fresh unused).
    apply Hbinary.
Defined.

(** C4 on the sample service: a quota error and a decoder error. *)
Lemma error_classifier_C4_witness :
  Res.status
    (handleCompressionError
       {| err_status := JNum 429; err_message := JStr "Your monthly limit has been exceeded." |}
       Res.fresh) = 429
  /\ Res.field "message"
       (handleCompressionError
          {| err_status := JUndefined; err_message := JStr "The first argument must be of type string" |}
          Res.fresh)
     = Some (JStr "The first argument must be of type string").
Proof.
  split.
  - apply (error_classifier_C4 (backend := backend) (codec := codec)
             {| err_status := JNum 429;
                err_message := JStr "Your monthly limit has been exceeded." |}
             Res.fresh).
    reflexivity.
  - apply (error_classifier_C4 (backend := backend) (codec := codec)
             {| err_status := JUndefined;
                err_message := JStr "The first argument must be of type string" |}
             Res.fresh); discriminate.
Defined.



(** C7 on the sample service: a valid and a revoked key. *)
Lemma status_endpoint_C7_witness :
  Res.field "compressionCount" (fst (get_api_status Res.fresh unused))
  = Some (JNum 0)
  /\ Res.status (fst (get_api_status Res.fresh revoked)) = 401.
Proof.
  split.
  - exact (proj2 (proj2 (proj2 (status_endpoint_C7 unused)))).
  - exact (proj1 (proj2 (status_endpoint_C7 revoked))).
Defined.

(** C8 on the sample service. *)
Lemma legacy_handler_C8_witness :
  Legacy.post_api_compress jpg_request Res.fresh unused
  = post_api_compress jpg_request Res.fresh unused.
Proof. exact (legacy_handler_C8 jpg_request Res.fresh unused). Defined.

(** C9 on the sample service: the refused request leaves the client
    as it was. *)
Lemma missing_input_no_call_C9_witness :
  Req.body empty_request !! "image" = None
  /\ Req.file empty_request = None
  /\ snd (post_api_compress empty_request Res.fresh exhausted) = exhausted
  /\ snd (post_api_compress_binary empty_request Res.fresh exhausted) = exhausted.
Proof.
  split; [reflexivity|]. split; [reflexivity|].
  pose proof (missing_input_no_call_C9 (codec := codec)
                empty_request empty_request exhausted eq_refl eq_refl)
    as (Hjson & Hbinary & _).
  split; [exact Hjson | exact Hbinary].
Defined.

(** C10 on the sample service: the four headers of the jpg upload. *)
Lemma metadata_headers_C10_witness :
  compressImage image_bytes (request_options jpg_request) unused
  = (Returned jpg_result, used_once)
  /\ Res.header "X-Original-Size"
       (Res.headers (fst (post_api_compress_binary jpg_request Res.fresh unused)))
     = Some "8"
  /\ Res.header "X-Compression-Count"
       (Res.headers (fst (post_api_compress_binary jpg_request Res.fresh unused)))
     = Some "1"
  /\ Res.field "compressionCount"
       (fst (post_api_compress jpg_request Res.fresh unused))
     = Some (JNum 1).
Proof.
  split; [exact sample_run|].
  pose proof (metadata_headers_C10 jpg_request image_bytes unused jpg_result
                used_once sample_run) as [Hbinary Hjson].
  destruct (Hbinary eq_refl) as (Hsize & _ & _ & Hcount & _).
  split; [exact Hsize|]. split; [exact Hcount|].
  exact (Hjson eq_refl eq_refl).
Defined.

End Witnesses.

(** * Further properties of the code *)

(** ** More on [parseInt] *)






Lemma truthy_falsy_values v : truthy v = false <-> v ∈ falsy_values.
Proof.
  unfold falsy_values. rewrite !elem_of_cons, elem_of_nil. split.
  - destruct v as [| |[]|n| | |s|]; simpl; try discriminate; auto 10.
    + intros E%negb_false_iff%Z.eqb_eq. subst. auto 10.
    + intros E%negb_false_iff%String.eqb_eq. subst. auto 10.
  - intros [->|[->|[->|[->|[->|[->|[]]]]]]]; reflexivity.
Qed.

(** ** The compress endpoints as a whole *)

Section Endpoints.
Context {Service : Type} {backend : Tinify.Backend Service} {codec : BufferCodec}.

Implicit Types (t : Tinify.client Service) (req : Req.t) (res : Res.t).

(** The inline handler of [server.js], step for step the current one. *)
Lemma legacy_post_api_compress_unfold req res t :
  Legacy.post_api_compress req res t = post_api_compress req res t.
Proof.
  destruct (truthy (prop (Req.body req) "image")) eqn:Himage.
  2: { rewrite post_api_compress_missing by done.
       unfold Legacy.post_api_compress, try_catch, ret. by rewrite Himage. }
  destruct (from_base64 (prop (Req.body req) "image")) as [buf|e] eqn:Hdecode.
  2: { rewrite (post_api_compress_undecodable _ _ _ _ Himage Hdecode).
       unfold Legacy.post_api_compress, try_catch, bind, lift.
       by rewrite Himage, Hdecode. }
  rewrite (post_api_compress_run _ _ _ _ Himage Hdecode).
  unfold Legacy.post_api_compress, compressImage, request_options.
  unfold try_catch, bind, lift, call, gets, ret.
  rewrite Himage, Hdecode. simpl.
  destruct (Tinify.toBuffer _ _) as [[b|e] t1]; reflexivity.
Qed.

Lemma handleCompressionError_shape e res :
  error_body (Res.sent (handleCompressionError e res))
  /\ Res.status (handleCompressionError e res) ∈ [400; 401; 429; 500]
  /\ Res.headers (handleCompressionError e res) = Res.headers res.
Proof.
  unfold handleCompressionError, error_body.
  destruct (strict_eq_num (err_status e) 401);
    [|destruct (strict_eq_num (err_status e) 429)]; simpl;
    (split; [by eexists _, _|split; [set_solver|done]]).
Qed.




(** X2: every answer of the JSON endpoint (of either server) sets no
    header and is either the 200 success object, with its base64 data,
    or an object with exactly the fields error and message under status
    400, 401, 429 or 500. *)
Theorem json_response_shape req t :
  let r := fst (post_api_compress req Res.fresh t) in
  fst (Legacy.post_api_compress req Res.fresh t) = r
  /\ Res.headers r = []
  /\ ((Res.status r = 200
       /\ Res.field "success" r = Some (JBool true)
       /\ exists data, Res.field "data" r = Some (JStr data))
      \/ (Res.status r ∈ [400; 401; 429; 500] /\ error_body (Res.sent r))).
Proof.
  intros r. subst r. split; [by rewrite legacy_post_api_compress_unfold|].
  destruct (truthy (prop (Req.body req) "image")) eqn:Himage.
  2: { rewrite post_api_compress_missing by done. simpl. split; [done|].
       right. split; [set_solver|]. by eexists _, _. }
  destruct (from_base64 (prop (Req.body req) "image")) as [buf|e] eqn:Hdecode.
  2: { rewrite (post_api_compress_undecodable _ _ _ _ Himage Hdecode). simpl.
       destruct (handleCompressionError_shape e Res.fresh) as (Hb & Hs & Hh).
       split; [done|]. by right. }
  rewrite (post_api_compress_run _ _ _ _ Himage Hdecode).
  destruct (compressImage _ _ t) as [[result|e] t']; simpl.
  - split; [done|]. left. repeat split; eauto.
  - destruct (handleCompressionError_shape e Res.fresh) as (Hb & Hs & Hh).
    split; [done|]. by right.
Qed.


(** X4: the JSON endpoint (of either server) answers 400 exactly when
    the image property is falsy, which besides an absent field covers
    null, false, 0 and the empty string; the binary endpoint answers
    400 exactly when no file was uploaded, so an upload of zero bytes
    is not refused. *)
Theorem rejected_iff_falsy req t :
  (Res.status (fst (post_api_compress req Res.fresh t)) = 400
   <-> prop (Req.body req) "image" ∈ falsy_values)
  /\ (Res.status (fst (Legacy.post_api_compress req Res.fresh t)) = 400
      <-> prop (Req.body req) "image" ∈ falsy_values)
  /\ (Res.status (fst (post_api_compress_binary req Res.fresh t)) = 400
      <-> Req.file req = None).
Proof.
  assert (forall e, Res.status (handleCompressionError e Res.fresh) <> 400) as Hne.
  { intros e. destruct (handleCompressionError_status e Res.fresh) as [E|[E|E]];
      rewrite E; discriminate. }
  assert (Res.status (fst (post_api_compress req Res.fresh t)) = 400
          <-> prop (Req.body req) "image" ∈ falsy_values) as Hjson.
  { rewrite <- truthy_falsy_values.
    destruct (truthy (prop (Req.body req) "image")) eqn:Himage.
    2: { by rewrite post_api_compress_missing. }
    destruct (from_base64 (prop (Req.body req) "image")) as [buf|e] eqn:Hdecode.
    2: { rewrite (post_api_compress_undecodable _ _ _ _ Himage Hdecode). simpl.
         split; [intros H; by apply Hne in H | discriminate]. }
    rewrite (post_api_compress_run _ _ _ _ Himage Hdecode).
    destruct (compressImage _ _ t) as [[result|e] t']; simpl.
    - split; discriminate.
    - split; [intros H; by apply Hne in H | discriminate]. }
  split; [exact Hjson|]. split.
  - by rewrite legacy_post_api_compress_unfold.
  - destruct (Req.file req) as [buf|] eqn:Hfile.
    2: { by rewrite post_api_compress_binary_missing. }
    rewrite (post_api_compress_binary_run _ _ _ _ Hfile).
    destruct (compressImage _ _ t) as [[result|e] t']; simpl.
    + split; discriminate.
    + split; [intros H; by apply Hne in H | discriminate].
Qed.

End Endpoints.

(** ** The pipeline on values outside the data model *)

Section OptionValues.
Context {Service : Type} {backend : Tinify.Backend Service} {codec : BufferCodec}.

Implicit Types (t : Tinify.client Service) (o : Options.t) (buf : list Byte.byte).

Lemma compressImage_same_chain buf o1 o2 t :
  resize_stage o1 ++ convert_stage o1 ++ background_stage o1
  = resize_stage o2 ++ convert_stage o2 ++ background_stage o2 ->
  snd (compressImage buf o1 t) = snd (compressImage buf o2 t)
  /\ match fst (compressImage buf o1 t), fst (compressImage buf o2 t) with
     | Returned r1, Returned r2 =>
         Compressed.buffer r1 = Compressed.buffer r2
         /\ Compressed.format r1 = resolved_format o1
         /\ Compressed.format r2 = resolved_format o2
     | Thrown e1, Thrown e2 => e1 = e2
     | _, _ => False
     end.
Proof.
  intros Hchain. rewrite !compressImage_run. unfold chained. rewrite Hchain.
  destruct (Tinify.toBuffer _ _) as [[b|e] t']; simpl; auto.
Qed.

(** X5: [background] matters to jpeg output only.  When the resolved
    format is neither jpeg nor jpg, changing the background changes
    nothing: same requests, same result, same client state. *)
Theorem background_ignored_unless_jpeg buf o background t :
  resolved_format o <> JStr "jpeg" ->
  resolved_format o <> JStr "jpg" ->
  compressImage buf (with_background o background) t = compressImage buf o t.
Proof.
  intros Hjpeg Hjpg. rewrite !compressImage_run.
  assert (chained buf (with_background o background) = chained buf o) as ->.
  { unfold chained, background_stage. f_equal. f_equal. f_equal.
    change (resolved_format (with_background o background))
      with (resolved_format o).
    repeat case_decide; try reflexivity; exfalso; intuition. }
  reflexivity.
Qed.

(** X6: jpg is an alias of jpeg towards the service.  The two formats
    send the same requests and yield the same bytes, errors and client
    state; only the format handed back to the caller differs. *)
Theorem jpg_alias_of_jpeg buf o t :
  snd (compressImage buf (with_format o (JStr "jpg")) t)
  = snd (compressImage buf (with_format o (JStr "jpeg")) t)
  /\ match fst (compressImage buf (with_format o (JStr "jpg")) t),
           fst (compressImage buf (with_format o (JStr "jpeg")) t) with
     | Returned r1, Returned r2 =>
         Compressed.buffer r1 = Compressed.buffer r2
         /\ Compressed.format r1 = JStr "jpg"
         /\ Compressed.format r2 = JStr "jpeg"
     | Thrown e1, Thrown e2 => e1 = e2
     | _, _ => False
     end.
Proof.
  apply (compressImage_same_chain buf
           (with_format o (JStr "jpg")) (with_format o (JStr "jpeg")) t).
  reflexivity.
Qed.

(** X7: the service is asked for plain compression (an empty chain)
    exactly when neither dimension is truthy and the format resolves to
    png. *)
Theorem plain_compression_iff buf o t :
  Tinify.requests (snd (compressImage buf o t))
  = Tinify.requests t ++ [Tinify.Shrink buf; Tinify.Result []]
  <-> (truthy (Options.width o) = false /\ truthy (Options.height o) = false
       /\ resolved_format o = JStr "png").
Proof.
  rewrite compressImage_requests. split.
  - intros Heq%app_inv_head. injection Heq as Hchain.
    apply app_eq_nil in Hchain as [Hr Hrest].
    apply app_eq_nil in Hrest as [Hc _].
    unfold resize_stage in Hr. unfold convert_stage in Hc.
    destruct (truthy (Options.width o)); [discriminate|].
    destruct (truthy (Options.height o)); [discriminate|].
    by case_decide.
  - intros (Hw & Hh & Hf).
    unfold resize_stage, convert_stage, background_stage.
    rewrite Hw, Hh, Hf. simpl. repeat case_decide; try reflexivity;
      try discriminate; exfalso; intuition discriminate.
Qed.

(** X8: a falsy dimension (0, the empty string, null) counts as absent:
    alone it requests no resize, and beside a truthy height it is
    replaced by 9999. *)
Theorem falsy_width_is_absent buf o t :
  Options.width o ∈ falsy_values ->
  exists chain,
    Tinify.requests (snd (compressImage buf o t))
    = Tinify.requests t ++ [Tinify.Shrink buf; Tinify.Result chain]
    /\ (truthy (Options.height o) = false ->
        forall m w h, Tinify.Resize m w h ∉ chain)
    /\ (truthy (Options.height o) = true ->
        forall m w h, Tinify.Resize m w h ∈ chain <->
                      (m, w, h) = ("fit", JNum 9999, parseInt (Options.height o))).
Proof.
  intros Hw%truthy_falsy_values.
  exists (resize_stage o ++ convert_stage o ++ background_stage o).
  split; [apply compressImage_requests|]. split.
  - intros Hh m w h. rewrite resize_in_chain. unfold resize_stage.
    rewrite Hw, Hh. simpl. apply not_elem_of_nil.
  - intros Hh m w h. rewrite resize_in_chain. unfold resize_stage.
    rewrite Hw, Hh. simpl. rewrite list_elem_of_singleton. split; congruence.
Qed.



End OptionValues.

(** ** The two adapters side by side *)

Section Adapters.
Context {Service : Type} {backend : Tinify.Backend Service} {codec : BufferCodec}.

Implicit Types (t : Tinify.client Service) (req : Req.t) (res : Res.t).

(** X11: for every resolved format other than jpg, the Content-Type of
    a successful binary response is image/ followed by that format,
    and it is the type of the conversion requested from the service
    whenever one was requested. *)
Theorem content_type_matches_conversion req buf t result t' :
  Req.file req = Some buf ->
  resolved_format (request_options req) <> JStr "jpg" ->
  compressImage buf (request_options req) t = (Returned result, t') ->
  exists content_type chain,
    Res.header "Content-Type"
      (Res.headers (fst (post_api_compress_binary req Res.fresh t)))
    = Some content_type
    /\ content_type = "image/" +:+ ToString (resolved_format (request_options req))
    /\ Tinify.requests t'
       = Tinify.requests t ++ [Tinify.Shrink buf; Tinify.Result chain]
    /\ forall type, Tinify.Convert type ∈ chain -> type = content_type.
Proof.
  intros Hfile Hjpg Hrun.
  exists ("image/" +:+ ToString (resolved_format (request_options req))).
  exists (resize_stage (request_options req) ++
          convert_stage (request_options req) ++
          background_stage (request_options req)).
  split; [|split; [done|split]].
  - rewrite (post_api_compress_binary_run _ _ _ _ Hfile), Hrun. simpl.
    by rewrite (compressImage_format _ _ _ _ _ Hrun).
  - pose proof (compressImage_requests buf (request_options req) t) as Hreq.
    by rewrite Hrun in Hreq.
  - intros type. rewrite convert_in_chain. unfold convert_stage.
    repeat case_decide; try contradiction;
      rewrite ?elem_of_nil, ?list_elem_of_singleton; [done|congruence].
Qed.

(** X12: given the same bytes (a body field that decodes to the
    uploaded file) and the same options, the two endpoints leave the
    client in the same state and answer with the same status; on
    success the binary body is the compressed buffer whose base64 is
    the JSON data, and each size header is the decimal numeral of the
    JSON field of the same meaning. *)
Theorem endpoints_agree req buf t :
  truthy (prop (Req.body req) "image") = true ->
  from_base64 (prop (Req.body req) "image") = Returned buf ->
  Req.file req = Some buf ->
  let rj := fst (post_api_compress req Res.fresh t) in
  let rb := fst (post_api_compress_binary req Res.fresh t) in
  snd (post_api_compress req Res.fresh t)
  = snd (post_api_compress_binary req Res.fresh t)
  /\ Res.status rj = Res.status rb
  /\ match Res.sent rb with
     | Res.Raw bytes =>
         Res.field "data" rj = Some (JStr (to_base64 bytes))
         /\ Res.field "compressedSize" rj = Some (JNum (len bytes))
         /\ Res.field "originalSize" rj = Some (JNum (len buf))
         /\ Res.header "X-Original-Size" (Res.headers rb)
            = ToString <$> Res.field "originalSize" rj
         /\ Res.header "X-Compressed-Size" (Res.headers rb)
            = ToString <$> Res.field "compressedSize" rj
         /\ Res.header "X-Savings" (Res.headers rb)
            = ToString <$> Res.field "savings" rj
     | _ => Res.sent rj = Res.sent rb
     end.
Proof.
  intros Himage Hdecode Hfile rj rb. subst rj rb.
  rewrite (post_api_compress_run _ _ _ _ Himage Hdecode).
  rewrite (post_api_compress_binary_run _ _ _ _ Hfile).
  destruct (compressImage _ _ t) as [[result|e] t']; simpl.
  - repeat split.
  - unfold handleCompressionError.
    destruct (strict_eq_num (err_status e) 401);
      [|destruct (strict_eq_num (err_status e) 429)]; by simpl.
Qed.


(** X14: the headers the binary endpoint sets are, besides
    Content-Type, among those the CORS configuration exposes to the
    page, and a successful response sets every exposed header. *)
Theorem exposed_headers_cover_metadata req t :
  let r := fst (post_api_compress_binary req Res.fresh t) in
  (forall name, name ∈ header_names r ->
     name = "Content-Type" \/ name ∈ Cors.exposedHeaders cors_options)
  /\ (Res.status r = 200 ->
      forall name, name ∈ Cors.exposedHeaders cors_options ->
                   name ∈ header_names r).
Proof.
  intros r. subst r.
  destruct (Req.file req) as [buf|] eqn:Hfile.
  2: { rewrite post_api_compress_binary_missing by done. simpl.
       split; [by intros name ?%elem_of_nil | discriminate]. }
  rewrite (post_api_compress_binary_run _ _ _ _ Hfile).
  destruct (compressImage _ _ t) as [[result|e] t'].
  - unfold header_names, cors_options. simpl. split.
    + intros name. rewrite !elem_of_cons. intuition.
    + intros _ name. rewrite !elem_of_cons. intuition.
  - destruct (handleCompressionError_shape e Res.fresh) as (_ & Hs & Hh).
    unfold header_names. simpl. rewrite Hh. simpl. split.
    + by intros name ?%elem_of_nil.
    + intros H200. rewrite H200 in Hs.
      rewrite !elem_of_cons, elem_of_nil in Hs. intuition discriminate.
Qed.

End Adapters.

(** ** The status endpoint and start-up *)

Section StatusAndStartup.
Context {Service : Type} {backend : Tinify.Backend Service}.

Implicit Types (t : Tinify.client Service) (env : gmap string string).



End StatusAndStartup.

(** ** The further properties on the sample service *)

Section Scenarios.
Import Sample Scenario.

Lemma webp_run :
  compressImage image_bytes (request_options webp_request) unused
  = (Returned webp_result, after_webp).
Proof. vm_compute. reflexivity. Defined.

Lemma webp_not_jpeg :
  resolved_format (request_options webp_request) <> JStr "jpeg"
  /\ resolved_format (request_options webp_request) <> JStr "jpg".
Proof. split; intros H; vm_compute in H; discriminate H. Defined.

(** X5 on the sample service: the black background of the webp request
    could as well be white. *)
Lemma background_ignored_unless_jpeg_witness :
  resolved_format (request_options webp_request) <> JStr "jpeg"
  /\ resolved_format (request_options webp_request) <> JStr "jpg"
  /\ compressImage image_bytes
       (with_background (request_options webp_request) (JStr "white")) unused
     = compressImage image_bytes (request_options webp_request) unused.
Proof.
  split; [exact (proj1 webp_not_jpeg)|]. split; [exact (proj2 webp_not_jpeg)|].
  exact (background_ignored_unless_jpeg image_bytes
           (request_options webp_request) (JStr "white") unused
           (proj1 webp_not_jpeg) (proj2 webp_not_jpeg)).
Defined.

(** X8 on the sample service: width 0 beside height 600. *)
Lemma falsy_width_is_absent_witness :
  Options.width zero_width ∈ falsy_values
  /\ exists chain,
       Tinify.requests (snd (compressImage image_bytes zero_width unused))
       = [Tinify.Shrink image_bytes; Tinify.Result chain]
       /\ Tinify.Resize "fit" (JNum 9999) (JNum 600) ∈ chain.
Proof.
  assert (Options.width zero_width ∈ falsy_values) as Hfalsy.
  { apply truthy_falsy_values. reflexivity. }
  split; [exact Hfalsy|].
  destruct (falsy_width_is_absent image_bytes zero_width unused Hfalsy)
    as (chain & Hrequests & _ & Hheight).
  exists chain. split; [exact Hrequests|].
  apply Hheight; reflexivity.
Defined.



(** X11 on the sample service: the webp upload is answered as
    image/webp. *)
Lemma content_type_matches_conversion_witness :
  Req.file webp_request = Some image_bytes
  /\ resolved_format (request_options webp_request) <> JStr "jpg"
  /\ compressImage image_bytes (request_options webp_request) unused
     = (Returned webp_result, after_webp)
  /\ Res.header "Content-Type"
       (Res.headers (fst (post_api_compress_binary webp_request Res.fresh unused)))
     = Some "image/webp".
Proof.
  split; [reflexivity|]. split; [exact (proj2 webp_not_jpeg)|].
  split; [exact webp_run|].
  destruct (content_type_matches_conversion webp_request image_bytes unused
              webp_result after_webp eq_refl (proj2 webp_not_jpeg) webp_run)
    as (content_type & chain & Hheader & Htype & _).
  rewrite Hheader, Htype. reflexivity.
Defined.

(** X12 on the sample service: the jpg request through both endpoints. *)
Lemma endpoints_agree_witness :
  truthy (prop (Req.body jpg_request) "image") = true
  /\ from_base64 (prop (Req.body jpg_request) "image") = Returned image_bytes
  /\ Req.file jpg_request = Some image_bytes
  /\ snd (post_api_compress jpg_request Res.fresh unused)
     = snd (post_api_compress_binary jpg_request Res.fresh unused).
Proof.
  split; [reflexivity|]. split; [reflexivity|]. split; [reflexivity|].
  pose proof (endpoints_agree jpg_request image_bytes unused
                eq_refl eq_refl eq_refl) as Hagree.
  cbv zeta in Hagree. exact (proj1 Hagree).
Defined.


(** X16 on the sample service: with a key the server listens on 3000
    and has validated once; without one it exits. *)
Example main_on_sample_environments :
  (exists console,
     main env_with_key unused
     = Process.Listening (JStr "k3y") (JNum 3000) "0.0.0.0" console
         {| Tinify.compressionCount := JNum 0; Tinify.service := 0;
            Tinify.requests := [Tinify.Validate] |})
  /\ (exists console, main env_without_key unused = Process.Exited 1 console).
Proof. split; eexists; vm_compute; reflexivity. Qed.

End Scenarios.
